(** * library-builder: the Navbar component library, its test, story,
      export manifest and build configuration

    A shallow embedding of the repository's TypeScript sources:
      - lib/components/navbar/navbar.tsx        (the component)
      - lib/components/navbar/navbar.spec.tsx   (its unit test)
      - lib/components/navbar/navbar.stories.ts (its catalog entry)
      - lib/index.ts                            (the export manifest)
      - vite.config.ts                          (the build configuration)
      - package.json                            (the package manifest)
    The component, the export manifest and the package manifest are the
    listings README.md gives for these files. Paths are kept relative to the
    project root. *)

From Stdlib Require Import Ascii.
From stdpp Require Import base strings list gmap.

Set Warnings "-register-all".
Local Open Scope string_scope.

(** ** File-system paths (node's [path] module, the part the sources use) *)
Module Path.

(** A path is the list of its segments below the project root. *)
Definition t : Type := list string.

(** [s.split(sep)] for a one-character separator. *)
Fixpoint split (sep : Ascii.ascii) (s : string) : list string :=
  match s with
  | EmptyString => [EmptyString]
  | String c rest =>
      if decide (c = sep) then EmptyString :: split sep rest
      else match split sep rest with
           | [] => [String c EmptyString]
           | w :: ws => String c w :: ws
           end
  end.

(** One step of normalisation: [.] and empty segments are dropped,
    [..] removes the segment before it. The accumulator is reversed. *)
Definition push (acc : list string) (seg : string) : list string :=
  if decide (seg = "") then acc
  else if decide (seg = ".") then acc
  else if decide (seg = "..") then tail acc
  else seg :: acc.

Definition normalize (segs : list string) : t :=
  rev (foldl push [] segs).

(** [path.resolve(dir, rel)] for a relative second argument that stays
    below the project root. *)
Definition resolve (dir : t) (rel : string) : t :=
  normalize (dir ++ split "/"%char rel).

(** [path.dirname] *)
Definition dirname (p : t) : t := removelast p.

Definition show (p : t) : string := String.concat "/" p.

End Path.

(** [__dirname] of a file at the project root. *)
Definition __dirname : Path.t := [].

(** ** The rendered document *)
Module Dom.

Inductive Node : Type :=
| Element (tagName : string) (attributes : list (string * string))
          (childNodes : list Node)
| Text (data : string).

Definition isElement (n : Node) : bool :=
  match n with Element _ _ _ => true | Text _ => false end.

Definition children (n : Node) : list Node :=
  match n with Element _ _ cs => cs | Text _ => [] end.

Definition attrs (n : Node) : list (string * string) :=
  match n with Element _ a _ => a | Text _ => [] end.

Definition tag (n : Node) : string :=
  match n with Element t _ _ => t | Text _ => "#text" end.

(** [node.textContent]: the text of all descendants, in document order. *)
Fixpoint textContent (n : Node) : string :=
  match n with
  | Text d => d
  | Element _ _ cs => String.concat "" (map textContent cs)
  end.

(** The element [n] itself (when it is one) followed by every element
    below it, in document order: what [n.matches('*')] together with
    [n.querySelectorAll('*')] selects. *)
Fixpoint elements (n : Node) : list Node :=
  match n with
  | Text _ => []
  | Element _ _ cs => n :: flat_map elements cs
  end.

(** Every text node below [n] (or [n] itself), in document order. *)
Fixpoint textNodes (n : Node) : list string :=
  match n with
  | Text d => [d]
  | Element _ _ cs => flat_map textNodes cs
  end.

End Dom.

(** ** Calls that may throw and touch the ambient state *)
Module Js.

Inductive outcome (A : Type) : Type :=
| Returned (a : A)
| Thrown (message : string).
Arguments Returned {A} a.
Arguments Thrown {A} message.

Definition returned {A} (o : outcome A) : bool :=
  match o with Returned _ => true | Thrown _ => false end.

(** A computation over an ambient state [W] (globals, the document). *)
Definition M (W A : Type) : Type := W -> outcome A * W.

Definition ret {W A} (a : A) : M W A := fun w => (Returned a, w).

Definition throw {W A} (msg : string) : M W A := fun w => (Thrown msg, w).

Definition bind {W A B} (m : M W A) (k : A -> M W B) : M W B :=
  fun w =>
    match m w with
    | (Returned a, w') => k a w'
    | (Thrown e, w') => (Thrown e, w')
    end.

(** Object literals, JSON documents and references to module bindings. *)
Inductive Value : Type :=
| Undefined
| Bool (b : bool)
| Str (s : string)
| Arr (items : list Value)
| Obj (fields : list (string * Value))
| Ref (file : Path.t) (exported : string).

(** [o[k]] on an object literal: the first field called [k]. *)
Fixpoint field (k : string) (fields : list (string * Value)) : Value :=
  match fields with
  | [] => Undefined
  | (k', v) :: rest => if decide (k = k') then v else field k rest
  end.

Definition get (k : string) (v : Value) : Value :=
  match v with Obj fs => field k fs | _ => Undefined end.

Definition keys (v : Value) : list string :=
  match v with Obj fs => map fst fs | _ => [] end.

End Js.

#[global] Instance M_ret {W} : MRet (Js.M W) := @Js.ret W.
#[global] Instance M_bind {W} : MBind (Js.M W) :=
  fun A B k m => Js.bind m k.

(** ** React function components *)
Module React.

Definition Props : Type := list (string * Js.Value).

(** A function component: called with its props, in the ambient state,
    it returns the tree to mount or throws. *)
Definition Component (W : Type) : Type := Props -> Js.M W Dom.Node.

End React.

(** ** lib/components/navbar/navbar.tsx

<<
export default function Navbar() {
	return (
		<div></div>
	);
}
>> *)
Definition Navbar {W : Type} : React.Component W :=
  fun _ => Js.ret (Dom.Element "div" [] []).

(** ** The trees a component may hand to React DOM

    React DOM builds host elements one by one; it rejects children on void
    elements, treats a few elements specially and leaves the element name
    to [document.createElement], which lower-cases it and rejects invalid
    names. A plain tree is one it mounts node for node as it is written. *)
Module Html.

Definition code (c : Ascii.ascii) : nat := Ascii.nat_of_ascii c.

Definition isLowerLetter (c : Ascii.ascii) : bool :=
  (97 <=? code c)%nat && (code c <=? 122)%nat.

Definition isUpperLetter (c : Ascii.ascii) : bool :=
  (65 <=? code c)%nat && (code c <=? 90)%nat.

Definition isDigit (c : Ascii.ascii) : bool :=
  (48 <=? code c)%nat && (code c <=? 57)%nat.

(** ASCII lower-casing: how an HTML document compares element names,
    attribute names and the values of [type]. *)
Definition lowerChar (c : Ascii.ascii) : Ascii.ascii :=
  if isUpperLetter c then Ascii.ascii_of_nat (code c + 32) else c.

Fixpoint lower (s : string) : string :=
  match s with
  | EmptyString => EmptyString
  | String c rest => String (lowerChar c) (lower rest)
  end.

Fixpoint allChars (p : Ascii.ascii -> bool) (s : string) : bool :=
  match s with
  | EmptyString => true
  | String c rest => p c && allChars p rest
  end.

(** A lower-case letter followed by lower-case letters and digits. *)
Definition plainTagName (s : string) : bool :=
  match s with
  | EmptyString => false
  | String c rest =>
      isLowerLetter c && allChars (fun c => isLowerLetter c || isDigit c) rest
  end.

(** A lower-case letter followed by lower-case letters, digits and
    hyphens. *)
Definition plainAttributeName (s : string) : bool :=
  match s with
  | EmptyString => false
  | String c rest =>
      isLowerLetter c &&
      allChars (fun c => isLowerLetter c || isDigit c
                         || bool_decide (c = "-"%char)) rest
  end.

(** The elements React DOM refuses children on. *)
Definition voidTags : list string :=
  [ "area"; "base"; "br"; "col"; "embed"; "hr"; "img"; "input"; "keygen";
    "link"; "menuitem"; "meta"; "param"; "source"; "track"; "wbr" ].

(** Elements whose children or namespace React DOM handles in its own
    way. *)
Definition specialTags : list string :=
  [ "textarea"; "noscript"; "select"; "optgroup"; "option"; "svg"; "math" ].

Fixpoint plain (n : Dom.Node) : bool :=
  match n with
  | Dom.Text d => negb (bool_decide (d = ""))
  | Dom.Element t a cs =>
      plainTagName t
      && negb (bool_decide (t ∈ specialTags))
      && (negb (bool_decide (t ∈ voidTags)) || bool_decide (cs = []))
      && forallb (fun kv => plainAttributeName (fst kv)) a
      && bool_decide (NoDup (map fst a))
      && forallb plain cs
  end.

End Html.

(** ** @testing-library/react: the calls the unit test makes *)
Module TestingLibrary.

(** The ambient state of a test: the children of [document.body]. *)
Record Document : Type := { body : list Dom.Node }.

Definition emptyDocument : Document := {| body := [] |}.

Definition baseElement (d : Document) : Dom.Node :=
  Dom.Element "body" [] (body d).

(** The number of bytes of the white-space character a UTF-8 text starts
    with, 0 when it starts with none. White space is JavaScript's [\s]:
    U+0009 to U+000D, U+0020, U+00A0, U+1680, U+2000 to U+200A, U+2028,
    U+2029, U+202F, U+205F, U+3000 and U+FEFF. *)
Definition blankLength (s : string) : nat :=
  match s with
  | EmptyString => 0
  | String a rest =>
      let a := Html.code a in
      if ((9 <=? a) && (a <=? 13) || (a =? 32))%nat then 1
      else
        match rest with
        | EmptyString => 0
        | String b rest' =>
            let b := Html.code b in
            if ((a =? 194) && (b =? 160))%nat then 2
            else
              match rest' with
              | EmptyString => 0
              | String c _ =>
                  let c := Html.code c in
                  if (((a =? 225) && (b =? 154) && (c =? 128))
                      || ((a =? 226) && (b =? 128)
                          && ((128 <=? c) && (c <=? 138)
                              || (c =? 168) || (c =? 169) || (c =? 175)))
                      || ((a =? 226) && (b =? 129) && (c =? 159))
                      || ((a =? 227) && (b =? 128) && (c =? 128))
                      || ((a =? 239) && (b =? 187) && (c =? 191)))%nat
                  then 3 else 0
              end
        end
  end.

Definition flush (cur : string) : list string :=
  if decide (cur = "") then [] else [cur].

(** The maximal runs of non-blank characters of [s]; [cur] is the run
    being read and [skip] counts the bytes still to pass of the blank
    being read. *)
Fixpoint wordsFrom (skip : nat) (cur : string) (s : string) : list string :=
  match s with
  | EmptyString => flush cur
  | String c rest =>
      match skip with
      | S k => wordsFrom k cur rest
      | 0 =>
          match blankLength s with
          | 0 => wordsFrom 0 (cur +:+ String c EmptyString) rest
          | S k => flush cur ++ wordsFrom k "" rest
          end
      end
  end.

(** The default normalizer: [text.trim().replace(/\s+/g, ' ')]. *)
Definition defaultNormalizer (text : string) : string :=
  String.concat " " (wordsFrom 0 "" text).

(** [node.getAttribute(k)] for a lower-case [k]; an HTML document keeps
    attribute names in lower case. *)
Definition attribute (k : string) (n : Dom.Node) : option string :=
  snd <$> List.find (fun kv => bool_decide (Html.lower (fst kv) = k))
                    (Dom.attrs n).

(** [node.matches('input[type=submit], input[type=button],
    input[type=reset]')]: names and the value of [type] compare without
    regard to case. *)
Definition isButtonInput (n : Dom.Node) : bool :=
  bool_decide (Html.lower (Dom.tag n) = "input") &&
  match attribute "type" n with
  | Some ty => bool_decide (Html.lower ty ∈ ["submit"; "button"; "reset"])
  | None => false
  end.

Definition nonEmptyText (n : Dom.Node) : option string :=
  match n with
  | Dom.Text d => if decide (d = "") then None else Some d
  | Dom.Element _ _ _ => None
  end.

(** [getNodeText(node)]: the value of a button-like input, otherwise the
    node's own non-empty text children joined. *)
Definition getNodeText (n : Dom.Node) : string :=
  if isButtonInput n then default "" (attribute "value" n)
  else String.concat "" (omap nonEmptyText (Dom.children n)).

(** The default [ignore] option, ['script, style']. *)
Definition ignored (n : Dom.Node) : bool :=
  bool_decide (Html.lower (Dom.tag n) ∈ ["script"; "style"]).

(** The exact string matcher. *)
Definition matchesText (text : string) (n : Dom.Node) : bool :=
  bool_decide (defaultNormalizer (getNodeText n) = text).

(** [queryAllByText(container, text)] with the default options. *)
Definition queryAllByText (container : Dom.Node) (text : string)
  : list Dom.Node :=
  filter (fun n => matchesText text n)
    (filter (fun n => negb (ignored n)) (Dom.elements container)).

(** How the not-found error names the text it looked for. *)
Definition describeText (text : string) : string :=
  if decide (defaultNormalizer text = text) then text
  else defaultNormalizer text +:+ " (normalized from '" +:+ text +:+ "')".

(** The opening clause of the two errors of [getByText]. In the library
    the message goes on with advice and a print-out of the document; that
    continuation is left out here. *)
Definition missingError (text : string) : string :=
  "Unable to find an element with the text: " +:+ describeText text.

Definition multipleError (text : string) : string :=
  "Found multiple elements with the text: " +:+ text.

(** [getByText]: exactly one match is returned, none or several throw. *)
Definition getByTextIn (container : Dom.Node) (text : string)
  : Js.outcome Dom.Node :=
  match queryAllByText container text with
  | [] => Js.Thrown (missingError text)
  | [el] => Js.Returned el
  | _ :: _ :: _ => Js.Thrown (multipleError text)
  end.

(** What [render] hands back: queries bound to [document.body]. *)
Record RenderResult : Type :=
  { getByText : string -> Js.M Document Dom.Node }.

Definition boundQueries : RenderResult :=
  {| getByText := fun text d => (getByTextIn (baseElement d) text, d) |}.

(** [document.body.appendChild(document.createElement('div'))]: the
    container, returned as its position among the children of the body. *)
Definition appendContainer : Js.M Document nat :=
  fun d =>
    (Js.Returned (length (body d)),
     {| body := body d ++ [Dom.Element "div" [] []] |}).

(** Makes [tree] the content of the container at position [i]. This is
    what React DOM does with a plain tree ([Html.plain]); what it does with
    other trees is not described here. *)
Definition mount (i : nat) (tree : Dom.Node) : Js.M Document unit :=
  fun d =>
    (Js.Returned tt,
     {| body :=
          alter (fun c => Dom.Element (Dom.tag c) (Dom.attrs c) [tree])
                i (body d) |}).

(** [render(<C {...props} />)]: the container is in the document when the
    component is called, and stays there when the component throws. *)
Definition render (C : React.Component Document) (props : React.Props)
  : Js.M Document RenderResult :=
  i ← appendContainer;
  tree ← C props;
  _ ← mount i tree;
  mret boundQueries.

(** The document a test's component is called in. *)
Definition startDocument : Document :=
  snd (appendContainer emptyDocument).

End TestingLibrary.

(** ** vitest: [describe], [it], [expect(...).toBeTruthy()] *)
Module Vitest.

Import TestingLibrary.

Inductive TestResult : Type :=
| Passed
| Failed (message : string).

Definition passed (r : TestResult) : bool :=
  match r with Passed => true | Failed _ => false end.

(** The test failed and its message opens with [opening]. *)
Definition failedWith (opening : string) (r : TestResult) : Prop :=
  ∃ rest, r = Failed (opening +:+ rest).

(** Every DOM element is an object, and objects are truthy. *)
Definition truthy (el : Dom.Node) : bool := true.

Definition expect_toBeTruthy (el : Dom.Node) : Js.M Document unit :=
  if truthy el then Js.ret tt
  else Js.throw "expected value to be truthy".

(** A test passes when its body returns; each test starts on an empty
    document. *)
Definition it (name : string) (body : Js.M Document unit)
  : string * TestResult :=
  (name,
   match fst (body emptyDocument) with
   | Js.Returned _ => Passed
   | Js.Thrown e => Failed e
   end).

Definition describe (name : string) (tests : list (string * TestResult))
  : string * list (string * TestResult) :=
  (name, tests).

End Vitest.

(** ** lib/components/navbar/navbar.spec.tsx

<<
describe('Navbar test', () => {
  it('renders', () => {
    const { getByText } = render(<Navbar />);
    expect(getByText('Navbar')).toBeTruthy();
  });
});
>>
    The module is a function of the binding it imports from ['./navbar']. *)
Module NavbarSpec.

Import TestingLibrary Vitest.

Definition renders (Navbar : React.Component Document)
  : Js.M Document unit :=
  r ← render Navbar [];
  el ← getByText r "Navbar";
  expect_toBeTruthy el.

Definition suite (Navbar : React.Component Document) :=
  describe "Navbar test" [ it "renders" (renders Navbar) ].

(** The outcome of the one test of the file. *)
Definition result (Navbar : React.Component Document) : TestResult :=
  snd (it "renders" (renders Navbar)).

End NavbarSpec.

(** ** The repository's files and how imports between them resolve *)
Module Repo.

Definition navbar_tsx : Path.t := ["lib"; "components"; "navbar"; "navbar.tsx"].
Definition navbar_spec_tsx : Path.t :=
  ["lib"; "components"; "navbar"; "navbar.spec.tsx"].
Definition navbar_stories_ts : Path.t :=
  ["lib"; "components"; "navbar"; "navbar.stories.ts"].
Definition index_ts : Path.t := ["lib"; "index.ts"].

Definition files : list Path.t :=
  [ [".storybook"; "main.ts"];
    [".storybook"; "preview.ts"];
    ["lib"; "components"; "index.ts"];
    navbar_spec_tsx;
    navbar_stories_ts;
    navbar_tsx;
    ["lib"; "index.css"];
    index_ts;
    ["lib"; "setupTests.ts"];
    ["package.json"];
    ["tailwind.config.js"];
    ["tsconfig.json"];
    ["vite.config.ts"] ].

(** The component tree: the files below [lib/components]. *)
Definition componentTree : list Path.t :=
  filter (fun f => bool_decide (["lib"; "components"] `prefix_of` f)) files.

(** The extensions tried for an import without one, in order. *)
Definition extensions : list string :=
  [""; ".mjs"; ".js"; ".mts"; ".ts"; ".jsx"; ".tsx"; ".json"].

Fixpoint withExtension (p : Path.t) (ext : string) : Path.t :=
  match p with
  | [] => []
  | [name] => [name +:+ ext]
  | seg :: rest => seg :: withExtension rest ext
  end.

(** The file a relative import in [importer] refers to: the path itself
    with one of the extensions or, failing that, the [index] file of the
    directory of that name. *)
Definition resolveImport (importer : Path.t) (specifier : string)
  : option Path.t :=
  let base := Path.resolve (Path.dirname importer) specifier in
  List.find (fun f => bool_decide (f ∈ files))
            (map (withExtension base) extensions
             ++ map (withExtension (base ++ ["index"])) extensions)%list.

(** [import X from specifier]: a reference to the default export of the
    resolved file. *)
Definition importDefault (importer : Path.t) (specifier : string)
  : Js.Value :=
  match resolveImport importer specifier with
  | Some f => Js.Ref f "default"
  | None => Js.Undefined
  end.

(** The components the files of the tree define, by binding. *)
Definition component {W : Type} (file : Path.t) (exported : string)
  : option (React.Component W) :=
  if decide (file = navbar_tsx ∧ exported = "default")
  then Some Navbar else None.

Definition componentOf {W : Type} (v : Js.Value)
  : option (React.Component W) :=
  match v with
  | Js.Ref file exported => component file exported
  | _ => None
  end.

End Repo.

(** ** lib/components/navbar/navbar.stories.ts

<<
import Navbar from "./navbar";
const meta = {
  title: "Navbar Example",
  component: Navbar
} satisfies Meta<typeof Navbar>;
export default meta;
export const Default: Story = {};
>> *)
Module NavbarStories.

Definition Navbar : Js.Value :=
  Repo.importDefault Repo.navbar_stories_ts "./navbar".

Definition meta : Js.Value :=
  Js.Obj [ ("title", Js.Str "Navbar Example");
           ("component", Navbar) ].

Definition Default : Js.Value := Js.Obj [].

Definition exports : gmap string Js.Value :=
  {[ "default" := meta; "Default" := Default ]}.

(** The variants of the catalog entry: the named exports. *)
Definition stories : gmap string Js.Value := delete "default" exports.

End NavbarStories.

(** ** Storybook: how a story of a component-story file is rendered *)
Module Storybook.

Definition fieldsOf (v : Js.Value) : list (string * Js.Value) :=
  match v with Js.Obj fs => fs | _ => [] end.

(** [{...meta.args, ...story.args}]: the story's fields come first, so
    they win on lookup. *)
Definition args (meta story : Js.Value) : React.Props :=
  (fieldsOf (Js.get "args" story) ++ fieldsOf (Js.get "args" meta))%list.

(** The component of a story is the one its meta names; a story cannot
    replace it. *)
Definition componentRef (meta story : Js.Value) : Js.Value :=
  Js.get "component" meta.

(** The annotations that replace or wrap the default render function or
    run code around it. *)
Definition renderAnnotations : list string :=
  ["render"; "decorators"; "loaders"; "beforeEach"; "play"].

(** Neither the story nor its meta carries such an annotation. *)
Definition usesDefaultRender (meta story : Js.Value) : bool :=
  forallb (fun k => negb (bool_decide (k ∈ renderAnnotations)))
          (Js.keys story ++ Js.keys meta)%list.

(** The default render function, the one in effect when
    [usesDefaultRender] holds: the component applied to the args. *)
Definition renderStory {W : Type} (meta story : Js.Value)
  : Js.M W Dom.Node :=
  match Repo.componentOf (componentRef meta story) with
  | Some C => C (args meta story)
  | None => Js.throw "the story has no component to render"
  end.

End Storybook.

(** ** lib/index.ts

<<
import Navbar from './components/navbar/navbar';
export { Navbar };
>> *)
Module LibIndex.

Definition Navbar : Js.Value :=
  Repo.importDefault Repo.index_ts "./components/navbar/navbar".

Definition exports : gmap string Js.Value := {[ "Navbar" := Navbar ]}.

(** [import { name } from 'dilo-library']: a name the manifest lacks is
    rejected when the consumer is built. *)
Definition importNamed (name : string) : Js.outcome Js.Value :=
  match exports !! name with
  | Some v => Js.Returned v
  | None => Js.Thrown ("no exported member " +:+ name)
  end.

End LibIndex.

(** ** Vite: the shape of the configuration record *)
Module Vite.

Record LibraryOptions : Type :=
  { entry : Path.t;
    name : string;
    fileName : string -> string;
    (** absent from the record when [None] *)
    formats : option (list string) }.

Record RollupOptions : Type :=
  { external : list string;
    output_globals : list (string * string) }.

Record BuildOptions : Type :=
  { lib : LibraryOptions;
    rollupOptions : RollupOptions;
    sourcemap : bool;
    emptyOutDir : bool }.

Record DtsOptions : Type := { rollupTypes : bool }.

#[global] Instance DtsOptions_eq_dec : EqDecision DtsOptions.
Proof. solve_decision. Defined.

(** The plugins the configuration instantiates. *)
Inductive Plugin : Type :=
| react
| dts (options : DtsOptions)
| cssInjectedByJsPlugin.

#[global] Instance Plugin_eq_dec : EqDecision Plugin.
Proof. solve_decision. Defined.

Record TestOptions : Type :=
  { globals : bool;
    environment : string;
    setupFiles : list string }.

Record UserConfig : Type :=
  { build : BuildOptions;
    plugins : list Plugin;
    test : TestOptions;
    resolve_alias : list (string * Path.t);
    css_postcss_plugins : list string }.

(** Library mode builds these formats when [formats] is not given. *)
Definition defaultFormats : list string := ["es"; "umd"].

Definition libFormats (o : LibraryOptions) : list string :=
  default defaultFormats (formats o).

(** The bundle file written for each format. *)
Definition outputFileNames (c : UserConfig) : list string :=
  map (fileName (lib (build c))) (libFormats (lib (build c))).

Definition inlinesCss (c : UserConfig) : bool :=
  bool_decide (cssInjectedByJsPlugin ∈ plugins c).

Definition emitsRolledUpTypes (c : UserConfig) : bool :=
  bool_decide (dts {| rollupTypes := true |} ∈ plugins c).

End Vite.

(** ** vite.config.ts *)
Module ViteConfig.

Import Vite.

Definition config : UserConfig :=
  {| build :=
       {| lib :=
            {| entry := Path.resolve __dirname "./lib/index.ts";
               name := "react-beautiful-timeline";
               fileName := fun format => "index." +:+ format +:+ ".js";
               formats := None |};
          rollupOptions :=
            {| external := ["react"; "react-dom"; "tailwindcss"];
               output_globals :=
                 [ ("react", "React");
                   ("react-dom", "ReactDOM");
                   ("tailwindcss", "tailwindcss") ] |};
          sourcemap := true;
          emptyOutDir := true |};
     plugins :=
       [ react; dts {| rollupTypes := true |}; cssInjectedByJsPlugin ];
     test :=
       {| globals := true;
          environment := "jsdom";
          setupFiles := ["./lib/setupTests.ts"] |};
     resolve_alias := [ ("@", Path.resolve __dirname "lib") ];
     css_postcss_plugins := ["tailwindcss"] |}.

End ViteConfig.

(** ** package.json *)
Module PackageJson.

Import Js.

Definition manifest : Value :=
  Obj
    [ ("name", Str "dilo-library");
      ("private", Bool true);
      ("version", Str "0.0.0");
      ("type", Str "module");
      ("main", Str "./dist/index.umd.js");
      ("module", Str "./dist/index.es.js");
      ("types", Str "./dist/index.d.ts");
      ("files", Arr [Str "dist"]);
      ("exports",
       Obj [ (".",
              Obj [ ("import", Str "./dist/index.es.js");
                    ("require", Str "./dist/index.umd.js");
                    ("types", Str "./dist/index.d.ts") ]) ]);
      ("scripts",
       Obj [ ("dev", Str "vite");
             ("build", Str "tsc && vite build");
             ("lint",
              Str "eslint . --ext ts,tsx --report-unused-disable-directives --max-warnings 0");
             ("preview", Str "vite preview");
             ("storybook", Str "storybook dev -p 6006");
             ("build-storybook", Str "storybook build");
             ("test", Str "vitest") ]);
      ("peerDependencies",
       Obj [ ("react", Str "^18.3.1");
             ("react-dom", Str "^18.3.1");
             ("tailwindcss", Str "^3.4.4") ]);
      ("devDependencies",
       Obj [ ("@chromatic-com/storybook", Str "^1.5.0");
             ("@storybook/addon-essentials", Str "^8.1.6");
             ("@storybook/addon-interactions", Str "^8.1.6");
             ("@storybook/addon-links", Str "^8.1.6");
             ("@storybook/addon-onboarding", Str "^8.1.6");
             ("@storybook/blocks", Str "^8.1.6");
             ("@storybook/react", Str "^8.1.6");
             ("@storybook/react-vite", Str "^8.1.6");
             ("@storybook/test", Str "^8.1.6");
             ("@testing-library/jest-dom", Str "^6.4.5");
             ("@testing-library/react", Str "^16.0.0");
             ("@types/jest", Str "^29.5.12");
             ("@types/react", Str "^18.2.66");
             ("@types/react-dom", Str "^18.2.22");
             ("@typescript-eslint/eslint-plugin", Str "^7.2.0");
             ("@typescript-eslint/parser", Str "^7.2.0");
             ("@vitejs/plugin-react", Str "^4.2.1");
             ("@vitejs/plugin-react-swc", Str "^3.7.0");
             ("autoprefixer", Str "^10.4.19");
             ("eslint", Str "^8.57.0");
             ("eslint-plugin-react-hooks", Str "^4.6.0");
             ("eslint-plugin-react-refresh", Str "^0.4.6");
             ("eslint-plugin-storybook", Str "^0.8.0");
             ("jsdom", Str "^24.1.0");
             ("postcss", Str "^8.4.38");
             ("react", Str "^18.3.1");
             ("react-dom", Str "^18.3.1");
             ("storybook", Str "^8.1.6");
             ("tailwindcss", Str "^3.4.4");
             ("typescript", Str "^5.2.2");
             ("vite", Str "^5.2.0");
             ("vite-plugin-css-injected-by-js", Str "^3.5.1");
             ("vite-plugin-dts", Str "^3.9.1");
             ("vitest", Str "^1.6.0") ]) ].

End PackageJson.

(** ** npm: what the [private] field of a manifest means to [npm publish] *)
Module Npm.

(** JavaScript's truthiness on the values of a manifest. *)
Definition truthy (v : Js.Value) : bool :=
  match v with
  | Js.Undefined => false
  | Js.Bool b => b
  | Js.Str s => negb (bool_decide (s = ""))
  | Js.Arr _ | Js.Obj _ | Js.Ref _ _ => true
  end.

Definition isPrivate (manifest : Js.Value) : bool :=
  truthy (Js.get "private" manifest).

Definition publish (manifest : Js.Value) : Js.outcome unit :=
  if isPrivate manifest
  then Js.Thrown "EPRIVATE This package has been marked as private"
  else Js.Returned tt.

End Npm.

(** ** README.md: the shell commands of the guide, in order *)
Module Readme.

Definition commands : list string :=
  [ "pnpm create vite";
    "cd dilo-library";
    "pnpm install";
    "pnpm add -D tailwindcss postcss autoprefixer";
    "npx tailwindcss init -p";
    "pnpm dlx @storybook/cli@latest init";
    "pnpm add -D vitest @types/jest @testing-library/jest-dom @testing-library/react jsdom";
    "pnpm add -D @vitejs/plugin-react-swc vite-plugin-dts vite-plugin-css-injected-by-js";
    "pnpm add -D react react-dom";
    "pnpm storybook";
    "pnpm vitest";
    "pnpm run build";
    "npm publish" ].

(** The names the guide has [lib/index.ts] export. *)
Definition publicNames : gset string := {[ "Navbar" ]}.

End Readme.

(** A segment of a normalised path: a name, not a step. *)
Definition properSegment (seg : string) : Prop :=
  seg ≠ "" ∧ seg ≠ "." ∧ seg ≠ "..".

(** ** JavaScript string methods the resolvers below use *)
Module JsString.

(** [s.slice(n)] *)
Fixpoint slice (n : nat) (s : string) : string :=
  match n, s with
  | 0, _ => s
  | S _, EmptyString => EmptyString
  | S n', String _ rest => slice n' rest
  end.

(** [s.slice(0, n)] *)
Fixpoint take (n : nat) (s : string) : string :=
  match n, s with
  | 0, _ => EmptyString
  | S _, EmptyString => EmptyString
  | S n', String c rest => String c (take n' rest)
  end.

Fixpoint startsWith (s pre : string) {struct pre} : bool :=
  match pre, s with
  | EmptyString, _ => true
  | String _ _, EmptyString => false
  | String a pre', String b s' => bool_decide (a = b) && startsWith s' pre'
  end.

Definition endsWith (s suf : string) : bool :=
  startsWith (String.rev s) (String.rev suf).

(** The text before and after the first [sep] of [s]. *)
Fixpoint splitFirst (sep : Ascii.ascii) (s : string)
  : option (string * string) :=
  match s with
  | EmptyString => None
  | String c rest =>
      if decide (c = sep) then Some (EmptyString, rest)
      else match splitFirst sep rest with
           | Some (before, after) => Some (String c before, after)
           | None => None
           end
  end.

(** The replacement text of [s.replace(pattern, replacement)] for a string
    pattern: [$$] stands for a dollar, [$&] for the matched text, and a
    dollar before a back quote or a quote for the text before or after the
    match; any other dollar stands for itself. *)
Fixpoint expandReplacement (matched before after replacement : string)
  : string :=
  match replacement with
  | EmptyString => EmptyString
  | String c rest =>
      if decide (c = "$"%char) then
        match rest with
        | EmptyString => String c EmptyString
        | String c' rest' =>
            if decide (c' = "$"%char)
            then String c (expandReplacement matched before after rest')
            else if decide (c' = "&"%char)
            then matched +:+ expandReplacement matched before after rest'
            else if decide (c' = "`"%char)
            then before +:+ expandReplacement matched before after rest'
            else if decide (c' = "'"%char)
            then after +:+ expandReplacement matched before after rest'
            else String c (expandReplacement matched before after rest)
        end
      else String c (expandReplacement matched before after rest)
  end.

(** [s.replace(sep, replacement)] for a one-character pattern. *)
Definition replaceFirst (sep : Ascii.ascii) (replacement s : string)
  : string :=
  match splitFirst sep s with
  | Some (before, after) =>
      before
      +:+ expandReplacement (String sep EmptyString) before after replacement
      +:+ after
  | None => s
  end.

(** Back slashes turned into slashes. *)
Fixpoint normalizeSlashes (s : string) : string :=
  match s with
  | EmptyString => EmptyString
  | String c rest =>
      String (if decide (c = "092"%char) then "/"%char else c)
             (normalizeSlashes rest)
  end.

(** Letters, digits and [- . / @ _]: what ordinary module names are made
    of. *)
Definition isNameChar (c : Ascii.ascii) : bool :=
  Html.isLowerLetter c || Html.isUpperLetter c || Html.isDigit c
  || bool_decide (c ∈ ["-"; "."; "/"; "@"; "_"]%char).

Definition ordinaryName (s : string) : bool := Html.allChars isNameChar s.

End JsString.

(** ** The bundler's side of the [@] alias ([resolve.alias] of
    vite.config.ts)

    An alias keyed by a string applies to an import that is the key or
    starts with the key and a slash; the key is then replaced by the
    aliased directory. *)
Module Alias.

Definition matches (key importee : string) : bool :=
  bool_decide (importee = key) || JsString.startsWith importee (key +:+ "/").

Definition apply (aliases : list (string * Path.t)) (importee : string)
  : option Path.t :=
  match List.find (fun kv => matches (fst kv) importee) aliases with
  | Some (key, replacement) =>
      Some (Path.normalize
              (replacement ++
               Path.split "/" (JsString.slice (String.length key) importee)))
  | None => None
  end.

End Alias.

(** ** tsconfig.json and the type checker's side of the alias
    ([compilerOptions.paths]) *)
Module Tsconfig.

Import Js.

Definition json : Value :=
  Obj
    [ ("compilerOptions",
       Obj [ ("target", Str "ES2020");
             ("useDefineForClassFields", Bool true);
             ("lib", Arr [Str "ES2020"; Str "DOM"; Str "DOM.Iterable"]);
             ("module", Str "ESNext");
             ("skipLibCheck", Bool true);
             ("moduleResolution", Str "bundler");
             ("allowImportingTsExtensions", Bool true);
             ("resolveJsonModule", Bool true);
             ("isolatedModules", Bool true);
             ("noEmit", Bool true);
             ("declaration", Bool true);
             ("jsx", Str "react-jsx");
             ("strict", Bool true);
             ("noUnusedLocals", Bool true);
             ("noUnusedParameters", Bool true);
             ("noFallthroughCasesInSwitch", Bool true);
             ("baseUrl", Str ".");
             ("paths", Obj [ ("@/*", Arr [Str "./lib/*"]) ]);
             ("outDir", Str "./dist") ]);
      ("include", Arr [Str "lib"]);
      ("references", Arr [Obj [ ("path", Str "./tsconfig.node.json") ]]) ].

(** A pattern holds at most one star. A pattern without one matches only
    itself; [prefix*suffix] matches a long enough name that starts with the
    prefix and ends with the suffix, and the star stands for what is in
    between. The result is the length of the matched prefix and the text
    of the star. *)
Definition matchPattern (pattern name : string) : option (nat * string) :=
  match Path.split "*" pattern with
  | [exact] =>
      if decide (name = exact) then Some (String.length exact, "") else None
  | [pre; suf] =>
      if JsString.startsWith name pre && JsString.endsWith name suf
         && (String.length pre + String.length suf <=? String.length name)%nat
      then Some (String.length pre,
                 JsString.take
                   (String.length name - String.length suf
                    - String.length pre)%nat
                   (JsString.slice (String.length pre) name))
      else None
  | _ => None
  end.

(** The matching pattern with the longest prefix, its star and its
    substitutions. *)
Fixpoint bestMatch (paths : list (string * Value)) (name : string)
  : option (nat * string * Value) :=
  match paths with
  | [] => None
  | (pattern, targets) :: rest =>
      match matchPattern pattern name, bestMatch rest name with
      | Some (n, star), Some (n', star', targets') =>
          if (n' <=? n)%nat then Some (n, star, targets)
          else Some (n', star', targets')
      | Some (n, star), None => Some (n, star, targets)
      | None, other => other
      end
  end.

(** A substitution with its first star replaced by the text the pattern's
    star matched; when that text is empty the substitution is taken as it
    is written. *)
Definition substitute (target star : string) : string :=
  if decide (star = "") then target
  else JsString.replaceFirst "*" star target.

(** The locations [paths] maps a module name to, in the order tried; each
    is taken relative to [baseUrl], itself relative to the project root. *)
Definition candidates (tsconfig : Value) (name : string) : list Path.t :=
  let options := get "compilerOptions" tsconfig in
  match get "baseUrl" options, get "paths" options with
  | Str baseUrl, Obj paths =>
      match bestMatch paths name with
      | Some (_, star, Arr targets) =>
          omap (fun target =>
                  match target with
                  | Str t =>
                      Some (Path.resolve
                              (Path.resolve __dirname baseUrl)
                              (JsString.normalizeSlashes
                                 (substitute t star)))
                  | _ => None
                  end)
               targets
      | _ => []
      end
  | _, _ => []
  end.

End Tsconfig.

(** ** What it means for a rendered document to contain a text *)
Module Rendered.

Import TestingLibrary.

(** An element carries [text] when a text query may select it and its
    own text, normalised, is [text]. *)
Definition carriesText (text : string) (el : Dom.Node) : Prop :=
  ignored el = false ∧ defaultNormalizer (getNodeText el) = text.

Definition containsText (root : Dom.Node) (text : string) : Prop :=
  ∃ el, el ∈ Dom.elements root ∧ carriesText text el.

(** The document a test sees after [render(<C />)]. *)
Definition output (C : React.Component Document) : Dom.Node :=
  baseElement (snd (render C [] emptyDocument)).

(** The document that holds [tree] in the one container of its body. *)
Definition mounted (tree : Dom.Node) : Dom.Node :=
  Dom.Element "body" [] [Dom.Element "div" [] [tree]].

(** Two components to run the test on: one renders the text once, the
    other renders it in two elements. *)
Definition labelled : React.Component Document :=
  fun _ => Js.ret (Dom.Element "div" [] [Dom.Text "Navbar"]).

Definition twoLabels : React.Component Document :=
  fun _ =>
    Js.ret (Dom.Element "div" []
              [ Dom.Element "a" [] [Dom.Text "Navbar"];
                Dom.Element "b" [] [Dom.Text "Navbar"] ]).

End Rendered.

(** * Properties *)

Section TextQueries.

Import TestingLibrary Rendered.

Lemma elem_of_queryAllByText root text el :
  el ∈ queryAllByText root text ↔
  el ∈ Dom.elements root ∧ carriesText text el.
Proof.
  unfold queryAllByText, carriesText, matchesText.
  rewrite !list_elem_of_filter, bool_decide_spec.
  destruct (ignored el); simpl; intuition congruence.
Qed.

Lemma containsText_queryAllByText root text :
  containsText root text ↔ queryAllByText root text ≠ [].
Proof.
  unfold containsText. split.
  - intros (el & Hel) Hnil.
    apply elem_of_queryAllByText in Hel.
    rewrite Hnil in Hel. by apply not_elem_of_nil in Hel.
  - intros Hne. destruct (queryAllByText root text) as [|el rest] eqn:E.
    + done.
    + exists el. apply elem_of_queryAllByText. rewrite E. left.
Qed.

(** [getByText] returns exactly when one element carries the text. *)
Lemma getByTextIn_returned root text :
  Js.returned (getByTextIn root text) = true ↔
  length (queryAllByText root text) = 1.
Proof.
  unfold getByTextIn.
  destruct (queryAllByText root text) as [|el [|el' rest]]; simpl;
    split; intros H; done.
Qed.

Lemma getByTextIn_returned_contains root text :
  Js.returned (getByTextIn root text) = true → containsText root text.
Proof.
  rewrite getByTextIn_returned, containsText_queryAllByText.
  intros Hlen Hnil. by rewrite Hnil in Hlen.
Qed.

Lemma getByTextIn_not_found root text :
  ¬ containsText root text →
  getByTextIn root text = Js.Thrown (missingError text).
Proof.
  rewrite containsText_queryAllByText. unfold getByTextIn.
  destruct (queryAllByText root text); [done|]. intros H. by destruct H.
Qed.

Lemma getByTextIn_several root text :
  (2 ≤ length (queryAllByText root text))%nat →
  getByTextIn root text = Js.Thrown (multipleError text).
Proof.
  unfold getByTextIn.
  destruct (queryAllByText root text) as [|el [|el' rest]]; simpl;
    [lia | lia | done].
Qed.

End TextQueries.

Section NavbarTest.

Import TestingLibrary Vitest Rendered.

Variable C : React.Component Document.

(** The test body, once the component has been called: the component runs
    in the document that already holds the container. *)
Lemma renders_unfold :
  NavbarSpec.renders C emptyDocument =
  match C [] startDocument with
  | (Js.Returned tree, d) =>
      let d' :=
        {| body :=
             alter (fun c => Dom.Element (Dom.tag c) (Dom.attrs c) [tree])
                   0 (body d) |} in
      match getByTextIn (baseElement d') "Navbar" with
      | Js.Returned el => (Js.Returned tt, d')
      | Js.Thrown e => (Js.Thrown e, d')
      end
  | (Js.Thrown e, d) => (Js.Thrown e, d)
  end.
Proof.
  unfold NavbarSpec.renders, render, mbind, M_bind, mret, M_ret, Js.bind,
    Js.ret, mount, boundQueries, getByText, expect_toBeTruthy, truthy.
  change (appendContainer emptyDocument) with (Js.Returned 0, startDocument).
  cbv beta iota.
  destruct (C [] startDocument) as [[tree|e] d]; simpl; [|done].
  by destruct (getByTextIn _ _).
Qed.

Lemma output_unfold :
  output C =
  match C [] startDocument with
  | (Js.Returned tree, d) =>
      baseElement
        {| body :=
             alter (fun c => Dom.Element (Dom.tag c) (Dom.attrs c) [tree])
                   0 (body d) |}
  | (Js.Thrown e, d) => baseElement d
  end.
Proof.
  unfold output, render, mbind, M_bind, mret, M_ret, Js.bind, Js.ret, mount.
  change (appendContainer emptyDocument) with (Js.Returned 0, startDocument).
  cbv beta iota.
  by destruct (C [] startDocument) as [[tree|e] d].
Qed.

(** A component that returns [tree] and leaves the document alone: the
    test queries the document that holds the tree in its container. *)
Lemma output_mounted tree :
  C [] startDocument = (Js.Returned tree, startDocument) →
  output C = mounted tree.
Proof. intros H. by rewrite output_unfold, H. Qed.

Lemma result_mounted tree :
  C [] startDocument = (Js.Returned tree, startDocument) →
  NavbarSpec.result C =
  match getByTextIn (mounted tree) "Navbar" with
  | Js.Returned _ => Passed
  | Js.Thrown e => Failed e
  end.
Proof.
  intros H. unfold NavbarSpec.result, it. simpl. rewrite renders_unfold, H.
  change (baseElement _) with (mounted tree).
  by destruct (getByTextIn _ _).
Qed.

Lemma result_passed_iff_one tree :
  C [] startDocument = (Js.Returned tree, startDocument) →
  NavbarSpec.result C = Passed ↔
  ∃ el, queryAllByText (mounted tree) "Navbar" = [el].
Proof.
  intros H. rewrite (result_mounted _ H). unfold getByTextIn.
  destruct (queryAllByText _ _) as [|el [|el' rest]]; split;
    first [done | by intros [? ?] | by eexists].
Qed.

Lemma result_failed_missing tree :
  C [] startDocument = (Js.Returned tree, startDocument) →
  ¬ containsText (mounted tree) "Navbar" →
  NavbarSpec.result C = Failed (missingError "Navbar").
Proof.
  intros H Hno. by rewrite (result_mounted _ H), getByTextIn_not_found.
Qed.

Lemma result_failed_several tree :
  C [] startDocument = (Js.Returned tree, startDocument) →
  (2 ≤ length (queryAllByText (mounted tree) "Navbar"))%nat →
  NavbarSpec.result C = Failed (multipleError "Navbar").
Proof.
  intros H Hlen. by rewrite (result_mounted _ H), getByTextIn_several.
Qed.

End NavbarTest.

Lemma failedWith_missing :
  Vitest.failedWith "Unable to find an element with the text: Navbar"
    (Vitest.Failed (TestingLibrary.missingError "Navbar")).
Proof. by exists "". Qed.

Lemma failedWith_several :
  Vitest.failedWith "Found multiple elements with the text: Navbar"
    (Vitest.Failed (TestingLibrary.multipleError "Navbar")).
Proof. by exists "". Qed.

(** The test does pass on a component that renders the text once, also
    when the text is wrapped in white space beyond ASCII (here U+00A0
    before and U+2003 after), and it takes a button-like input by its
    value whatever the case of its [type]. *)
Example test_passes_on_labelled_div :
  NavbarSpec.result Rendered.labelled = Vitest.Passed.
Proof. reflexivity. Qed.

Example test_passes_on_padded_label :
  NavbarSpec.result
    (fun _ =>
       Js.ret (Dom.Element "div" []
                 [Dom.Text (String "194" (String "160"
                    ("Navbar" +:+
                     String "226" (String "128" (String "131" "")))))])) =
  Vitest.Passed.
Proof. reflexivity. Qed.

Example test_passes_on_submit_input :
  NavbarSpec.result
    (fun _ =>
       Js.ret (Dom.Element "input"
                 [("type", "SUBMIT"); ("value", "Navbar")] [])) =
  Vitest.Passed.
Proof. reflexivity. Qed.

(** The query rejects a document in which two elements carry the text, and
    it passes over script elements. *)
Example test_fails_on_two_labels :
  Vitest.failedWith "Found multiple elements with the text: Navbar"
    (NavbarSpec.result Rendered.twoLabels).
Proof. apply failedWith_several. Qed.

Example test_fails_on_script :
  Vitest.failedWith "Unable to find an element with the text: Navbar"
    (NavbarSpec.result
       (fun _ => Js.ret (Dom.Element "script" [] [Dom.Text "Navbar"]))).
Proof. apply failedWith_missing. Qed.

(** A throwing component leaves the empty container in the document. *)
Example container_stays_when_component_throws :
  Rendered.output (fun _ => Js.throw "Navbar crashed") =
  Dom.Element "body" [] [Dom.Element "div" [] []].
Proof. reflexivity. Qed.

Section TextFreeTrees.

Import TestingLibrary Vitest Rendered.

Lemma Node_ind_nested (P : Dom.Node → Prop) :
  (∀ d, P (Dom.Text d)) →
  (∀ t a cs, Forall P cs → P (Dom.Element t a cs)) →
  ∀ n, P n.
Proof.
  intros HText HElement. fix IH 1. intros [t a cs|d]; [|apply HText].
  apply HElement. induction cs as [|c cs IHcs]; constructor; [apply IH|done].
Qed.

Lemma flat_map_nil_inv {A B} (f : A → list B) (l : list A) :
  flat_map f l = [] → ∀ x, x ∈ l → f x = [].
Proof.
  induction l as [|y l IH]; simpl; intros H x Hx.
  - by apply not_elem_of_nil in Hx.
  - apply app_eq_nil in H as [Hy Hl].
    apply elem_of_cons in Hx as [->|Hx]; [done | by apply IH].
Qed.

(** Below a tree without text nodes no element has one. *)
Lemma textNodes_below n :
  Dom.textNodes n = [] →
  ∀ el, el ∈ Dom.elements n → Dom.textNodes el = [].
Proof.
  induction n as [d|t a cs IH] using Node_ind_nested; intros Hn el Hel.
  - by apply not_elem_of_nil in Hel.
  - simpl in Hel. apply elem_of_cons in Hel as [->|Hel]; [done|].
    apply list_elem_of_In, in_flat_map in Hel as (c & Hc & Hel).
    apply list_elem_of_In in Hc, Hel.
    rewrite Forall_forall in IH. apply (IH c Hc); [|done].
    simpl in Hn. by apply (flat_map_nil_inv _ _ Hn).
Qed.

Lemma getNodeText_text_free el :
  Dom.textNodes el = [] → isButtonInput el = false → getNodeText el = "".
Proof.
  intros Hel Hbutton. unfold getNodeText. rewrite Hbutton.
  destruct el as [t a cs|d]; [|done]. simpl in *.
  induction cs as [|c cs IH]; [done|]. simpl in Hel.
  apply app_eq_nil in Hel as [Hc Hcs].
  destruct c as [t' a' cs'|d]; [|done]. simpl. by apply IH.
Qed.

(** On a tree without text nodes and without button-like inputs the query
    finds nothing. *)
Lemma result_failed_text_free (C : React.Component Document) tree :
  C [] startDocument = (Js.Returned tree, startDocument) →
  Dom.textNodes tree = [] →
  Forall (fun el => isButtonInput el = false) (Dom.elements tree) →
  NavbarSpec.result C = Failed (missingError "Navbar").
Proof.
  intros HC Htext Hbuttons.
  apply (result_failed_missing C tree HC).
  intros (el & Hel & _ & Hcarries).
  rewrite getNodeText_text_free in Hcarries; [done| |].
  - apply (textNodes_below (mounted tree)); [|done].
    simpl. by rewrite Htext.
  - simpl in Hel. rewrite !app_nil_r in Hel.
    apply elem_of_cons in Hel as [->|Hel]; [reflexivity|].
    apply elem_of_cons in Hel as [->|Hel]; [reflexivity|].
    rewrite Forall_forall in Hbuttons. by apply Hbuttons.
Qed.

End TextFreeTrees.

(** The bundles the build writes are the ones the package manifest points
    its [module] and [main] entries at, below [dist]. *)
Lemma manifest_entry_points_match_build :
  map (fun f => Js.Str ("./dist/" +:+ f))
      (Vite.outputFileNames ViteConfig.config) =
  [ Js.get "module" PackageJson.manifest; Js.get "main" PackageJson.manifest ].
Proof. reflexivity. Qed.

Section Claims.

Import TestingLibrary Vitest Rendered.

(** The component mounts nothing that carries a text. *)
Lemma Navbar_output_elements :
  Dom.elements (output Navbar) =
  [ Dom.Element "body" [] [Dom.Element "div" [] [Dom.Element "div" [] []]];
    Dom.Element "div" [] [Dom.Element "div" [] []];
    Dom.Element "div" [] [] ].
Proof. reflexivity. Qed.

Lemma Navbar_output_lacks_text : ¬ containsText (output Navbar) "Navbar".
Proof.
  rewrite containsText_queryAllByText. intros H. by apply H.
Qed.




(** C2. Rendering Navbar yields one [div] element: no children, no
    attributes, no text; neither the tree nor the document it is mounted
    in contains the text "Navbar". *)
Theorem Navbar_renders_one_empty_div :
  ∀ (W : Type) (props : React.Props) (w : W),
  ∃ tree,
    fst (Navbar props w) = Js.Returned tree
    ∧ tree = Dom.Element "div" [] []
    ∧ Dom.elements tree = [tree]
    ∧ Dom.tag tree = "div"
    ∧ Dom.children tree = []
    ∧ Dom.attrs tree = []
    ∧ Dom.textNodes tree = []
    ∧ Dom.textContent tree = ""
    ∧ ¬ containsText tree "Navbar"
    ∧ ¬ containsText (output Navbar) "Navbar".
Proof.
  intros W props w. exists (Dom.Element "div" [] []).
  split_and!; try reflexivity.
  - rewrite containsText_queryAllByText. intros H. by apply H.
  - apply Navbar_output_lacks_text.
Qed.

(** C3. Rendering Navbar is deterministic and pure: whatever the props
    and the ambient state, it returns the same tree and leaves the state
    as it found it. *)
Theorem Navbar_render_pure :
  ∀ (W : Type) (props1 props2 : React.Props) (w1 w2 : W),
    fst (Navbar props1 w1) = fst (Navbar props2 w2)
    ∧ fst (Navbar props1 w1) = Js.Returned (Dom.Element "div" [] [])
    ∧ snd (Navbar props1 w1) = w1.
Proof. intros. by split_and!. Qed.

(** C4. The export manifest holds exactly the documented name "Navbar";
    each of its names is bound to the default export of a file of the
    component tree that defines a component; any other name is missing
    from the manifest and importing it is rejected. *)
Theorem exports_exactly_Navbar :
  dom LibIndex.exports = Readme.publicNames
  ∧ (∀ name v,
       LibIndex.exports !! name = Some v →
       ∃ file,
         v = Js.Ref file "default"
         ∧ file ∈ Repo.componentTree
         ∧ ∀ W : Type, is_Some (@Repo.componentOf W v))
  ∧ (∀ name,
       name ≠ "Navbar" →
       LibIndex.exports !! name = None
       ∧ Js.returned (LibIndex.importNamed name) = false)
  ∧ LibIndex.importNamed "Navbar" =
    Js.Returned (Js.Ref Repo.navbar_tsx "default").
Proof.
  split_and!.
  - unfold LibIndex.exports, Readme.publicNames.
    by rewrite dom_singleton_L.
  - intros name v. unfold LibIndex.exports.
    rewrite lookup_singleton_Some. intros [_ <-].
    exists Repo.navbar_tsx. split_and!.
    + reflexivity.
    + unfold Repo.componentTree. apply list_elem_of_filter. split.
      * by apply bool_decide_spec; exists ["navbar"; "navbar.tsx"].
      * unfold Repo.files. set_solver.
    + intros W. by eexists.
  - intros name Hne. unfold LibIndex.importNamed, LibIndex.exports.
    rewrite lookup_singleton_ne by done. done.
  - reflexivity.
Qed.

(** C5. Rendering Navbar never throws, whatever the props and the ambient
    state. The catalog entry's Default variant supplies no arguments and
    rendering it returns the component's tree without throwing. *)
Theorem Navbar_never_throws :
  (∀ (W : Type) (props : React.Props) (w : W),
     Js.returned (fst (Navbar props w)) = true)
  ∧ Storybook.args NavbarStories.meta NavbarStories.Default = []
  ∧ (∀ (W : Type) (w : W),
       Storybook.renderStory NavbarStories.meta NavbarStories.Default w =
       (Js.Returned (Dom.Element "div" [] []), w)).
Proof. by split_and!. Qed.

(** C6. The catalog entry is a record of a string title and a component
    reference; its variant set holds exactly one variant, "Default",
    whose object is empty, so it overrides nothing. *)
Theorem catalog_entry_shape :
  Js.keys NavbarStories.meta = ["title"; "component"]
  ∧ Js.get "title" NavbarStories.meta = Js.Str "Navbar Example"
  ∧ Js.get "component" NavbarStories.meta = Js.Ref Repo.navbar_tsx "default"
  ∧ NavbarStories.exports !! "default" = Some NavbarStories.meta
  ∧ dom NavbarStories.stories = {[ "Default" ]}
  ∧ NavbarStories.stories !! "Default" = Some (Js.Obj [])
  ∧ Js.keys NavbarStories.Default = []
  ∧ Storybook.componentRef NavbarStories.meta NavbarStories.Default =
    Js.get "component" NavbarStories.meta.
Proof.
  split_and!; [reflexivity..| |reflexivity|reflexivity|reflexivity].
  - unfold NavbarStories.stories, NavbarStories.exports.
    rewrite dom_delete_L, dom_insert_L, dom_singleton_L. set_solver.
Qed.

(** C7. The component the catalog entry refers to is defined in the
    repository and is the very binding the export manifest exports under
    the name "Navbar". *)
Theorem catalog_component_exported :
  (∀ W : Type,
     is_Some (@Repo.componentOf W (Js.get "component" NavbarStories.meta)))
  ∧ Repo.resolveImport Repo.navbar_stories_ts "./navbar" =
    Some Repo.navbar_tsx
  ∧ Repo.resolveImport Repo.index_ts "./components/navbar/navbar" =
    Some Repo.navbar_tsx
  ∧ LibIndex.exports !! "Navbar" =
    Some (Js.get "component" NavbarStories.meta).
Proof.
  split_and!; try reflexivity.
  intros W. by eexists.
Qed.

(** C8. The build configuration names [lib/index.ts] as the library entry,
    writes [index.<format>.js] for each format, which with the two formats
    of library mode gives two files, keeps react, react-dom and
    tailwindcss external, enables the plugin that inlines the CSS and
    enables type declarations rolled up into one file. *)
Theorem build_config_shape :
  let c := ViteConfig.config in
  Vite.entry (Vite.lib (Vite.build c)) = Repo.index_ts
  ∧ Path.show (Vite.entry (Vite.lib (Vite.build c))) = "lib/index.ts"
  ∧ (∀ format,
       Vite.fileName (Vite.lib (Vite.build c)) format =
       "index." +:+ format +:+ ".js")
  ∧ Vite.libFormats (Vite.lib (Vite.build c)) = ["es"; "umd"]
  ∧ Vite.outputFileNames c = ["index.es.js"; "index.umd.js"]
  ∧ Vite.external (Vite.rollupOptions (Vite.build c)) =
    ["react"; "react-dom"; "tailwindcss"]
  ∧ Vite.cssInjectedByJsPlugin ∈ Vite.plugins c
  ∧ Vite.inlinesCss c = true
  ∧ Vite.dts {| Vite.rollupTypes := true |} ∈ Vite.plugins c
  ∧ Vite.emitsRolledUpTypes c = true.
Proof.
  simpl. split_and!; try reflexivity.
  - unfold ViteConfig.config; simpl. set_solver.
  - unfold ViteConfig.config; simpl. set_solver.
Qed.

(** C9. The build configuration calls the library
    "react-beautiful-timeline" while the package manifest calls the
    package "dilo-library": the two names differ. *)
Theorem library_names_disagree :
  Vite.name (Vite.lib (Vite.build ViteConfig.config)) =
  "react-beautiful-timeline"
  ∧ Js.get "name" PackageJson.manifest = Js.Str "dilo-library"
  ∧ Js.Str (Vite.name (Vite.lib (Vite.build ViteConfig.config))) ≠
    Js.get "name" PackageJson.manifest.
Proof. by split_and!. Qed.

(** C10. The package manifest sets "private" to true, so publishing it is
    refused, although the guide's last command is [npm publish]. *)
Theorem manifest_private_but_published :
  Js.get "private" PackageJson.manifest = Js.Bool true
  ∧ Npm.isPrivate PackageJson.manifest = true
  ∧ Js.returned (Npm.publish PackageJson.manifest) = false
  ∧ last Readme.commands = Some "npm publish".
Proof. by split_and!. Qed.

End Claims.

(** * Further properties of the sources *)

Section BundleNames.

Lemma list_ascii_of_string_app a b :
  String.list_ascii_of_string (a +:+ b) =
  (String.list_ascii_of_string a ++ String.list_ascii_of_string b)%list.
Proof.
  induction a as [|c a IH]; [done|].
  change (c :: String.list_ascii_of_string (a +:+ b) =
          c :: (String.list_ascii_of_string a ++
                String.list_ascii_of_string b)%list).
  by rewrite IH.
Qed.

Lemma string_app_inv_tail a b s : a +:+ s = b +:+ s → a = b.
Proof.
  intros H. apply (f_equal String.list_ascii_of_string) in H.
  rewrite !list_ascii_of_string_app in H. apply app_inv_tail in H.
  rewrite <- (String.string_of_list_ascii_of_string a), H.
  apply String.string_of_list_ascii_of_string.
Qed.

Lemma fileName_inj f1 f2 :
  Vite.fileName (Vite.lib (Vite.build ViteConfig.config)) f1 =
  Vite.fileName (Vite.lib (Vite.build ViteConfig.config)) f2 →
  f1 = f2.
Proof.
  change (("index." +:+ f1 +:+ ".js") = ("index." +:+ f2 +:+ ".js") → f1 = f2).
  intros H. apply (inj (String.app "index.")) in H.
  by apply string_app_inv_tail in H.
Qed.

(** X1. [fileName] of the build configuration never gives two formats the
    same bundle name: whatever formats are built, distinct formats are
    written to distinct files. *)
Theorem bundle_names_never_collide (formats : list string) :
  NoDup formats →
  NoDup (map (Vite.fileName (Vite.lib (Vite.build ViteConfig.config)))
             formats).
Proof.
  induction 1 as [|f fs Hnotin Hnodup IH]; simpl.
  - constructor.
  - constructor; [|done].
    intros Hin. apply Hnotin.
    apply list_elem_of_In, in_map_iff in Hin as (f' & Heq & Hin).
    apply fileName_inj in Heq as ->. by apply list_elem_of_In.
Qed.

Lemma bundle_names_never_collide_witness :
  NoDup ["es"; "umd"; "cjs"; "iife"] ∧
  NoDup ["index.es.js"; "index.umd.js"; "index.cjs.js"; "index.iife.js"].
Proof.
  assert (H : NoDup ["es"; "umd"; "cjs"; "iife"]).
  { compute_done. }
  split; [exact H | exact (bundle_names_never_collide _ H)].
Defined.

End BundleNames.

Section TestOnAnyComponent.

Import TestingLibrary Vitest Rendered.



End TestOnAnyComponent.

Section TreesUnderTest.

Import TestingLibrary Vitest Rendered.



Lemma getNodeText_labelled tag attributes text :
  isButtonInput (Dom.Element tag attributes [Dom.Text text]) = false →
  text ≠ "" →
  getNodeText (Dom.Element tag attributes [Dom.Text text]) = text.
Proof.
  intros Hbutton Hne. unfold getNodeText. rewrite Hbutton. simpl.
  by destruct (decide (text = "")).
Qed.

Lemma query_labelled tag attributes text :
  ignored (Dom.Element tag attributes [Dom.Text text]) = false →
  isButtonInput (Dom.Element tag attributes [Dom.Text text]) = false →
  defaultNormalizer text = "Navbar" →
  queryAllByText (mounted (Dom.Element tag attributes [Dom.Text text]))
                 "Navbar" =
  [Dom.Element tag attributes [Dom.Text text]].
Proof.
  intros Hignored Hbutton Htext.
  assert (Hne : text ≠ "") by (by intros ->).
  unfold queryAllByText.
  change (Dom.elements _) with
    [ mounted (Dom.Element tag attributes [Dom.Text text]);
      Dom.Element "div" [] [Dom.Element tag attributes [Dom.Text text]];
      Dom.Element tag attributes [Dom.Text text] ].
  assert (Hkept :
    ∀ l, filter (fun n => negb (ignored n)) l = l →
         ∀ n, ignored n = false →
              filter (fun n => negb (ignored n)) (n :: l) = n :: l).
  { intros l Hl n Hn. rewrite filter_cons_True by (by rewrite Hn).
    by rewrite Hl. }
  rewrite (Hkept [_; _]).
  - rewrite 2!filter_cons_False by (by compute).
    rewrite filter_cons_True; [done|].
    unfold matchesText. rewrite getNodeText_labelled by done.
    by apply bool_decide_pack.
  - apply Hkept; [|done]. by apply Hkept.
  - reflexivity.
Qed.



End TreesUnderTest.

Section StoryArgs.


End StoryArgs.

Section PathNormalisation.

Lemma push_clean acc seg :
  Forall properSegment acc → Forall properSegment (Path.push acc seg).
Proof.
  intros Hacc. unfold Path.push. repeat case_decide; try done.
  - destruct acc; [done|]. by apply Forall_cons in Hacc as [_ ?].
  - by constructor.
Qed.

Lemma foldl_push_clean segs acc :
  Forall properSegment acc → Forall properSegment (foldl Path.push acc segs).
Proof.
  revert acc. induction segs as [|seg segs IH]; intros acc Hacc; [done|].
  simpl. by apply IH, push_clean.
Qed.

Lemma foldl_push_on_clean l acc :
  Forall properSegment l → foldl Path.push acc l = (rev l ++ acc)%list.
Proof.
  revert acc. induction l as [|seg l IH]; intros acc Hl; [done|].
  apply Forall_cons in Hl as [(H1 & H2 & H3) Hl]. simpl.
  rewrite IH by done. unfold Path.push.
  rewrite !decide_False by done. by rewrite <- app_assoc.
Qed.

(** X7. A resolved path holds no empty, "." or ".." segment, and normalising
    it again changes nothing. *)
Theorem resolve_is_normalised (dir : Path.t) (rel : string) :
  Forall properSegment (Path.resolve dir rel)
  ∧ Path.normalize (Path.resolve dir rel) = Path.resolve dir rel.
Proof.
  unfold Path.resolve, Path.normalize.
  set (r := foldl Path.push [] (dir ++ Path.split "/" rel)%list).
  assert (Hr : Forall properSegment r) by (by apply foldl_push_clean).
  split.
  - by apply Forall_rev.
  - rewrite foldl_push_on_clean by (by apply Forall_rev).
    by rewrite rev_involutive, app_nil_r.
Qed.

End PathNormalisation.

Section AliasAgreement.

Lemma take_length s : JsString.take (String.length s) s = s.
Proof. induction s as [|c s IH]; simpl; [done | by rewrite IH]. Qed.

Lemma string_app_empty_r s : s +:+ "" = s.
Proof.
  induction s as [|c s IH]; [done|].
  change (String c (s +:+ "") = String c s). by rewrite IH.
Qed.

Lemma startsWith_at_slash name :
  JsString.startsWith name "@/" = true →
  ∃ rest, name = String "@" (String "/" rest).
Proof.
  destruct name as [|c1 [|c2 rest]]; simpl; try done.
  - rewrite andb_false_r. done.
  - rewrite andb_true_r. intros [H1 H2]%andb_true_iff.
    apply bool_decide_eq_true in H1, H2. subst. by eexists.
Qed.

Lemma matchPattern_at_star name :
  Tsconfig.matchPattern "@/*" name =
  if JsString.startsWith name "@/" && JsString.endsWith name ""
     && (2 <=? String.length name)%nat
  then Some (2, JsString.take (String.length name - 0 - 2)
                              (JsString.slice 2 name))
  else None.
Proof. reflexivity. Qed.

Lemma isNameChar_not c c' :
  JsString.isNameChar c' = false → JsString.isNameChar c = true → c ≠ c'.
Proof. intros H' H ->. by rewrite H in H'. Qed.

Lemma expandReplacement_ordinary matched before after r :
  JsString.ordinaryName r = true →
  JsString.expandReplacement matched before after r = r.
Proof.
  induction r as [|c r IH]; [done|]. simpl.
  intros [Hc Hr]%andb_true_iff.
  rewrite decide_False by (by apply isNameChar_not).
  by rewrite IH.
Qed.

Lemma normalizeSlashes_ordinary r :
  JsString.ordinaryName r = true → JsString.normalizeSlashes r = r.
Proof.
  induction r as [|c r IH]; [done|]. simpl.
  intros [Hc Hr]%andb_true_iff.
  rewrite decide_False by (by apply isNameChar_not).
  by rewrite IH.
Qed.

Lemma candidates_under_alias rest :
  rest ≠ "" → JsString.ordinaryName rest = true →
  Tsconfig.candidates Tsconfig.json (String "@" (String "/" rest)) =
  [Path.normalize ("lib" :: Path.split "/" rest)].
Proof.
  intros Hne Hrest.
  change (Tsconfig.candidates Tsconfig.json (String "@" (String "/" rest)))
    with [Path.resolve (Path.resolve __dirname ".")
            (JsString.normalizeSlashes
               (Tsconfig.substitute "./lib/*"
                  (JsString.take (String.length rest - 0) rest)))].
  rewrite Nat.sub_0_r, take_length.
  unfold Tsconfig.substitute. rewrite decide_False by done.
  change (JsString.replaceFirst "*" rest "./lib/*") with
    ("./lib/" +:+ JsString.expandReplacement "*" "./lib/" "" rest +:+ "").
  rewrite expandReplacement_ordinary, string_app_empty_r by done.
  change (JsString.normalizeSlashes ("./lib/" +:+ rest)) with
    ("./lib/" +:+ JsString.normalizeSlashes rest).
  rewrite normalizeSlashes_ordinary by done. reflexivity.
Qed.

Lemma alias_under_alias rest :
  Alias.apply (Vite.resolve_alias ViteConfig.config) (String "@" (String "/" rest)) =
  Some (Path.normalize ("lib" :: Path.split "/" rest)).
Proof. reflexivity. Qed.

Lemma tsconfig_baseUrl :
  Js.get "baseUrl" (Js.get "compilerOptions" Tsconfig.json) = Js.Str ".".
Proof. reflexivity. Qed.

Lemma tsconfig_paths :
  Js.get "paths" (Js.get "compilerOptions" Tsconfig.json) =
  Js.Obj [("@/*", Js.Arr [Js.Str "./lib/*"])].
Proof. reflexivity. Qed.

Lemma candidates_elsewhere name :
  JsString.startsWith name "@/" = false →
  Tsconfig.candidates Tsconfig.json name = [].
Proof.
  intros H.
  unfold Tsconfig.candidates. cbv zeta.
  rewrite tsconfig_baseUrl, tsconfig_paths. cbn [Tsconfig.bestMatch].
  rewrite matchPattern_at_star, H. done.
Qed.

Lemma alias_elsewhere name :
  name ≠ "@" → JsString.startsWith name "@/" = false →
  Alias.apply (Vite.resolve_alias ViteConfig.config) name = None.
Proof.
  intros Hne H. unfold Alias.apply.
  change (Vite.resolve_alias ViteConfig.config) with [("@", ["lib"])].
  cbn [List.find fst]. unfold Alias.matches.
  rewrite bool_decide_eq_false_2 by done.
  change ("@" +:+ "/") with "@/". by rewrite H.
Qed.

(** X5. The type checker's [paths] and the bundler's [resolve.alias] agree
    on the [@] alias: for every module name made of letters, digits and
    [- . / @ _], other than "@" and "@/", the locations [paths] of
    tsconfig.json maps it to are exactly the one [resolve.alias] of
    vite.config.ts maps it to, and there is none when the alias does not
    apply. *)
Theorem alias_agrees_with_tsconfig_paths (name : string) :
  JsString.ordinaryName name = true →
  name ≠ "@" →
  name ≠ "@/" →
  Tsconfig.candidates Tsconfig.json name =
  option_list (Alias.apply (Vite.resolve_alias ViteConfig.config) name).
Proof.
  intros Hname Hne Hne'. destruct (JsString.startsWith name "@/") eqn:E.
  - apply startsWith_at_slash in E as [rest ->].
    apply andb_true_iff in Hname as [_ [_ Hrest]%andb_true_iff].
    rewrite candidates_under_alias, alias_under_alias; [done| |done].
    by intros ->.
  - by rewrite candidates_elsewhere, alias_elsewhere.
Qed.

Lemma alias_agrees_with_tsconfig_paths_witness :
  Tsconfig.candidates Tsconfig.json "@/components/navbar/navbar" =
  [["lib"; "components"; "navbar"; "navbar"]].
Proof.
  rewrite (alias_agrees_with_tsconfig_paths "@/components/navbar/navbar").
  - reflexivity.
  - reflexivity.
  - done.
  - done.
Defined.

(** The two names on which they part: only the bundler resolves the bare
    "@", and at "@/" the type checker keeps the star of the substitution. *)
Example bare_alias_only_bundled :
  Alias.apply (Vite.resolve_alias ViteConfig.config) "@" = Some ["lib"]
  ∧ Tsconfig.candidates Tsconfig.json "@" = [].
Proof. split; reflexivity. Qed.

Example alias_of_empty_star :
  Alias.apply (Vite.resolve_alias ViteConfig.config) "@/" = Some ["lib"]
  ∧ Tsconfig.candidates Tsconfig.json "@/" = [["lib"; "*"]].
Proof. split; reflexivity. Qed.

(** Scoped packages start with "@" but not with "@/": they are left alone. *)
Example scoped_package_not_aliased :
  Alias.apply (Vite.resolve_alias ViteConfig.config) "@storybook/react" = None.
Proof. reflexivity. Qed.

End AliasAgreement.
